(** * Memory Chatbot: the application shell (frontend/src/App.js)

    [App] is the root React component.  It owns two [useState] cells,
    [view] (initially ['chat']) and [isAdminLoggedIn] (initially [false]),
    renders a header with two navigation buttons, and mounts either
    [<ChatInterface />] or [<AdminDashboard isLoggedIn=.. setIsLoggedIn=.. />]
    depending on [view === 'chat'].

    The embedding keeps the component as a pure function from the hook
    state to a virtual-DOM tree.  Event handlers stored in the tree are
    state transformers, so "the user clicks a button" and "the admin
    surface calls its setter" are both read off the rendered tree. *)

From Stdlib Require Import String List Bool.
Import ListNotations.
Open Scope string_scope.

(** ** React's [useState] *)

(** The argument of a state setter: either the next value or a function of
    the previous one. *)
Inductive SetStateAction (A : Type) : Type :=
| NextValue (a : A)
| Updater (f : A -> A).
Arguments NextValue {A} a.
Arguments Updater {A} f.

Definition basicStateReducer {A : Type} (state : A) (action : SetStateAction A) : A :=
  match action with
  | NextValue a => a
  | Updater f => f state
  end.

(** ** State of [App] *)

(** The two hook cells of [App], in declaration order. *)
Record AppState : Type := mkAppState {
  view : string;            (* 'chat' or 'admin' *)
  isAdminLoggedIn : bool
}.

(** [useState('chat')] and [useState(false)] at mount. *)
Definition mount : AppState :=
  {| view := "chat"; isAdminLoggedIn := false |}.

Definition setView (a : SetStateAction string) (s : AppState) : AppState :=
  {| view := basicStateReducer (view s) a;
     isAdminLoggedIn := isAdminLoggedIn s |}.

Definition setIsAdminLoggedIn (a : SetStateAction bool) (s : AppState) : AppState :=
  {| view := view s;
     isAdminLoggedIn := basicStateReducer (isAdminLoggedIn s) a |}.

(** ** Virtual DOM *)

Definition handler : Type := AppState -> AppState.

Record props : Type := mkProps {
  className : option string;
  onClick : option handler
}.

Definition noProps : props := {| className := None; onClick := None |}.
Definition class (c : string) : props := {| className := Some c; onClick := None |}.

#[local] Set Warnings "-register-all".
Inductive vnode : Type :=
| text (s : string)
| el (tag : string) (p : props) (children : list vnode)
| ChatInterface
| AdminDashboard (isLoggedIn : bool)
                 (setIsLoggedIn : SetStateAction bool -> handler).

(** ** The component *)

Definition App (s : AppState) : vnode :=
  el "div" (class "App")
    [ el "header" (class "App-header")
        [ el "h1" noProps [text "🧠 Memory Chatbot"];
          el "p" (class "subtitle")
            [text "Long-term memory AI that remembers across conversations"];
          el "div" (class "nav-buttons")
            [ el "button"
                {| className := Some (if view s =? "chat" then "active" else "");
                   onClick := Some (setView (NextValue "chat")) |}
                [text "💬 Chat"];
              el "button"
                {| className := Some (if view s =? "admin" then "active" else "");
                   onClick := Some (setView (NextValue "admin")) |}
                [text "🔐 Admin Dashboard"] ] ];
      el "main" (class "App-main")
        [ if view s =? "chat"
          then ChatInterface
          else AdminDashboard (isAdminLoggedIn s) setIsAdminLoggedIn ];
      el "footer" (class "App-footer")
        [ el "p" noProps
            [text "Built with governed long-term memory • No GPU required • CPU-only processing"] ] ].

(** ** Reading a rendered tree *)

(** The child components a tree mounts, in document order. *)
Fixpoint components (n : vnode) : list vnode :=
  match n with
  | text _ => []
  | el _ _ children => flat_map components children
  | ChatInterface => [ChatInterface]
  | AdminDashboard b k => [AdminDashboard b k]
  end.

(** The props of the [<button>] elements of a tree, in document order. *)
Fixpoint buttons (n : vnode) : list props :=
  match n with
  | el tag p children =>
      (if tag =? "button" then [p] else []) ++ flat_map buttons children
  | _ => []
  end.

(** The two navigation controls of the header. *)
Inductive control : Type := ChatControl | AdminControl.

(** The string a control stands for: the literal its button passes to
    [setView] and compares [view] against. *)
Definition controlValue (c : control) : string :=
  match c with
  | ChatControl => "chat"
  | AdminControl => "admin"
  end.

(** Position of a control's button among the buttons of the page. *)
Definition controlIndex (c : control) : nat :=
  match c with
  | ChatControl => 0
  | AdminControl => 1
  end.

Definition navButton (c : control) (root : vnode) : option props :=
  nth_error (buttons root) (controlIndex c).

(** What the admin surface is handed, when the tree mounts it. *)
Definition adminProps (root : vnode)
  : option (bool * (SetStateAction bool -> handler)) :=
  match components root with
  | [AdminDashboard b k] => Some (b, k)
  | _ => None
  end.

(** ** Dispatch *)

(** Events are delivered to the handlers found in the current render; a
    missing element or a missing handler is [None]. *)
Definition dispatch {A B : Type} (o : option A) (k : A -> option B)
  : option B :=
  match o with
  | Some a => k a
  | None => None
  end.

(** The user activates a navigation control. *)
Definition click (c : control) (s : AppState) : option AppState :=
  dispatch (navButton c (App s)) (fun p =>
  dispatch (onClick p) (fun h => Some (h s))).

Fixpoint clicks (cs : list control) (s : AppState) : option AppState :=
  match cs with
  | [] => Some s
  | c :: cs' => dispatch (click c s) (clicks cs')
  end.

(** The mounted admin surface calls its [setIsLoggedIn] prop. *)
Definition invoke (a : SetStateAction bool) (s : AppState) : option AppState :=
  dispatch (adminProps (App s)) (fun bk => Some (snd bk a s)).

(** States the shell can be in.  The setter handed to the admin surface
    is the hook's own setter, which a callback of that surface may still
    hold after the surface is unmounted, so it may fire in any state. *)
Inductive reachable : AppState -> Prop :=
| reachable_mount : reachable mount
| reachable_click (c : control) (s s' : AppState) :
    reachable s -> click c s = Some s' -> reachable s'
| reachable_setIsLoggedIn (a : SetStateAction bool) (s : AppState) :
    reachable s -> reachable (setIsAdminLoggedIn a s).

(** Three states of the walk "open the dashboard, log in, go back to
    the chat", used in the sample runs below. *)
Definition adminLoggedOut : AppState :=
  {| view := "admin"; isAdminLoggedIn := false |}.
Definition adminLoggedIn : AppState :=
  {| view := "admin"; isAdminLoggedIn := true |}.
Definition chatLoggedIn : AppState :=
  {| view := "chat"; isAdminLoggedIn := true |}.

(** ** Further readings of the tree and of the event loop *)

(** A button is marked when its class is the string ["active"]. *)
Definition isActive (p : props) : bool :=
  match className p with
  | Some c => c =? "active"
  | None => false
  end.

Definition activeButtons (root : vnode) : list props :=
  filter isActive (buttons root).

(** The component function behind a mounted node.  React keeps a mounted
    instance (and its local state) from one render to the next exactly
    when this is unchanged at the same position. *)
Inductive componentType : Type := ChatInterfaceType | AdminDashboardType.

Definition typeOf (n : vnode) : option componentType :=
  match n with
  | ChatInterface => Some ChatInterfaceType
  | AdminDashboard _ _ => Some AdminDashboardType
  | _ => None
  end.

Definition mountedTypes (root : vnode) : list (option componentType) :=
  map typeOf (components root).

(** One thing that can happen to the shell: a click on a navigation
    button, or a call of the flag's setter (by whoever holds it). *)
Inductive event : Type :=
| Click (c : control)
| SetIsLoggedIn (a : SetStateAction bool).

Definition step (e : event) (s : AppState) : option AppState :=
  match e with
  | Click c => click c s
  | SetIsLoggedIn a => Some (setIsAdminLoggedIn a s)
  end.

Fixpoint run (es : list event) (s : AppState) : option AppState :=
  match es with
  | [] => Some s
  | e :: es' => dispatch (step e s) (run es')
  end.

Definition isClick (e : event) : bool :=
  match e with
  | Click _ => true
  | SetIsLoggedIn _ => false
  end.

(** States reached when the setter is only ever called by an admin
    surface that is mounted at that moment. *)
Inductive live : AppState -> Prop :=
| live_mount : live mount
| live_click (c : control) (s s' : AppState) :
    live s -> click c s = Some s' -> live s'
| live_invoke (a : SetStateAction bool) (s s' : AppState) :
    live s -> invoke a s = Some s' -> live s'.

(** The tree with the [isLoggedIn] prop of every [AdminDashboard] blanked
    and everything else (tags, classes, handlers, texts, the setter prop,
    the shape) kept. *)
Fixpoint eraseIsLoggedIn (n : vnode) : vnode :=
  match n with
  | text s => text s
  | el tag p children => el tag p (map eraseIsLoggedIn children)
  | ChatInterface => ChatInterface
  | AdminDashboard _ k => AdminDashboard false k
  end.

(** A state outside the two documented values of [view]. *)
Definition strayView : AppState :=
  {| view := "settings"; isAdminLoggedIn := false |}.

(** ** Basic facts about the render *)

Lemma buttons_App (s : AppState) :
  buttons (App s) =
    [ {| className := Some (if view s =? "chat" then "active" else "");
         onClick := Some (setView (NextValue "chat")) |};
      {| className := Some (if view s =? "admin" then "active" else "");
         onClick := Some (setView (NextValue "admin")) |} ].
Proof. unfold App; simpl. destruct (view s =? "chat"); reflexivity. Qed.

Lemma components_App (s : AppState) :
  components (App s) =
    [ if view s =? "chat"
      then ChatInterface
      else AdminDashboard (isAdminLoggedIn s) setIsAdminLoggedIn ].
Proof. unfold App; simpl. destruct (view s =? "chat"); reflexivity. Qed.

Lemma navButton_App (c : control) (s : AppState) :
  navButton c (App s) =
    Some {| className := Some (if view s =? controlValue c then "active" else "");
            onClick := Some (setView (NextValue (controlValue c))) |}.
Proof. unfold navButton. rewrite buttons_App. destruct c; reflexivity. Qed.

Lemma click_App (c : control) (s : AppState) :
  click c s = Some (setView (NextValue (controlValue c)) s).
Proof. unfold click. rewrite navButton_App. reflexivity. Qed.

Lemma adminProps_chat (s : AppState) :
  view s = "chat" -> adminProps (App s) = None.
Proof.
  intros Hv. unfold adminProps. rewrite components_App, Hv. reflexivity.
Qed.

Lemma adminProps_other (s : AppState) :
  view s <> "chat" ->
  adminProps (App s) = Some (isAdminLoggedIn s, setIsAdminLoggedIn).
Proof.
  intros Hv. unfold adminProps. rewrite components_App.
  apply String.eqb_neq in Hv. rewrite Hv. reflexivity.
Qed.

Lemma invoke_other (a : SetStateAction bool) (s : AppState) :
  view s <> "chat" -> invoke a s = Some (setIsAdminLoggedIn a s).
Proof. intros Hv. unfold invoke. rewrite (adminProps_other s Hv). reflexivity. Qed.

Lemma clicks_snoc (cs : list control) (c : control) (s : AppState) :
  clicks (cs ++ [c]) s = dispatch (clicks cs s) (click c).
Proof.
  revert s. induction cs as [|c0 cs IH]; intros s; simpl.
  - destruct (click c s); reflexivity.
  - rewrite click_App. simpl. apply IH.
Qed.

Lemma clicks_total (cs : list control) (s : AppState) :
  exists s', clicks cs s = Some s' /\ isAdminLoggedIn s' = isAdminLoggedIn s.
Proof.
  revert s. induction cs as [|c cs IH]; intros s; simpl.
  - exists s. split; reflexivity.
  - rewrite click_App. simpl.
    destruct (IH (setView (NextValue (controlValue c)) s)) as [s' [Hs' Hb]].
    exists s'. split; [exact Hs' | exact Hb].
Qed.

Lemma reachable_view (s : AppState) :
  reachable s -> view s = "chat" \/ view s = "admin".
Proof.
  induction 1 as [|c s s' _ IH Hc|a s _ IH].
  - left; reflexivity.
  - rewrite click_App in Hc. injection Hc as <-.
    destruct c; [left | right]; reflexivity.
  - exact IH.
Qed.

(** The hook setter never leaves the tree under another name: whatever
    [setIsLoggedIn] prop a render hands out is [setIsAdminLoggedIn]. *)
Lemma capability_is_setter (s : AppState) (b : bool)
      (k : SetStateAction bool -> handler) :
  In (AdminDashboard b k) (components (App s)) ->
  b = isAdminLoggedIn s /\ k = setIsAdminLoggedIn.
Proof.
  rewrite components_App. destruct (view s =? "chat"); simpl.
  - intros [H | []]. discriminate H.
  - intros [H | []]. injection H as <- <-. split; reflexivity.
Qed.

(** ** Sample runs *)

Example run_open_admin : click AdminControl mount = Some adminLoggedOut.
Proof. reflexivity. Qed.

Example run_login : invoke (NextValue true) adminLoggedOut = Some adminLoggedIn.
Proof. reflexivity. Qed.

Example run_back_to_chat : click ChatControl adminLoggedIn = Some chatLoggedIn.
Proof. reflexivity. Qed.

Example run_chat_has_no_setter : invoke (NextValue false) chatLoggedIn = None.
Proof. reflexivity. Qed.

Example run_reopen_admin :
  dispatch (click AdminControl chatLoggedIn) (fun s => Some (components (App s), s))
  = Some ([AdminDashboard true setIsAdminLoggedIn], adminLoggedIn).
Proof. reflexivity. Qed.

Example run_toggle : invoke (Updater negb) adminLoggedIn = Some adminLoggedOut.
Proof. reflexivity. Qed.

Lemma reachable_adminLoggedIn : reachable adminLoggedIn.
Proof.
  exact (reachable_setIsLoggedIn (NextValue true) adminLoggedOut
           (reachable_click AdminControl mount adminLoggedOut
              reachable_mount eq_refl)).
Defined.

(** ** Properties of the shell *)

(** C1.  In every reachable state the render mounts exactly one child
    component: [ChatInterface] when [view] is ['chat'], and
    [AdminDashboard] (with the flag and its setter) when [view] is
    ['admin'].  The mounted list is a singleton, so never both and never
    neither. *)
Theorem exactly_one_surface (s : AppState) :
  reachable s ->
  (view s = "chat" /\ components (App s) = [ChatInterface]) \/
  (view s = "admin" /\
   components (App s) = [AdminDashboard (isAdminLoggedIn s) setIsAdminLoggedIn]).
Proof.
  intros Hr. rewrite components_App.
  destruct (reachable_view s Hr) as [Hv | Hv]; rewrite Hv; [left | right];
    split; reflexivity.
Qed.

Lemma exactly_one_surface_witness :
  reachable adminLoggedIn /\
  ((view adminLoggedIn = "chat" /\
    components (App adminLoggedIn) = [ChatInterface]) \/
   (view adminLoggedIn = "admin" /\
    components (App adminLoggedIn) =
      [AdminDashboard (isAdminLoggedIn adminLoggedIn) setIsAdminLoggedIn])).
Proof.
  split.
  - exact reachable_adminLoggedIn.
  - exact (exactly_one_surface adminLoggedIn reachable_adminLoggedIn).
Defined.

(** C2.  At mount [view] is ['chat'] and [isAdminLoggedIn] is [false], so
    the first render mounts the chat surface and nothing else. *)
Theorem initial_render :
  view mount = "chat" /\
  isAdminLoggedIn mount = false /\
  components (App mount) = [ChatInterface].
Proof. repeat split. Qed.

(** C3.  From any state, after any finite sequence of navigation clicks
    ending with control [c], every click was delivered and [view] is the
    value of [c]; and a second click on the control just clicked returns
    the very same state. *)
Theorem last_activation_wins (s : AppState) (cs : list control) (c : control) :
  (exists s', clicks (cs ++ [c]) s = Some s' /\ view s' = controlValue c) /\
  (exists s1, click c s = Some s1 /\ click c s1 = Some s1).
Proof.
  split.
  - rewrite clicks_snoc.
    destruct (clicks_total cs s) as [s0 [Hs0 _]]. rewrite Hs0. simpl.
    rewrite click_App. eexists. split; reflexivity.
  - rewrite click_App. eexists. split; [reflexivity |].
    rewrite click_App. reflexivity.
Qed.

(** C4.  When [view] is ['admin'] and the admin surface calls its setter
    with [true], the call is delivered, [view] is unchanged, and the
    render of the resulting state hands [isLoggedIn = true] to the admin
    surface. *)
Theorem login_visible_next_render (s : AppState) :
  view s = "admin" ->
  exists s', invoke (NextValue true) s = Some s' /\
             view s' = view s /\
             adminProps (App s') = Some (true, setIsAdminLoggedIn).
Proof.
  intros Hv.
  assert (Hn : view s <> "chat") by (rewrite Hv; discriminate).
  exists (setIsAdminLoggedIn (NextValue true) s). split; [| split].
  - apply invoke_other, Hn.
  - reflexivity.
  - apply (adminProps_other (setIsAdminLoggedIn (NextValue true) s)), Hn.
Qed.

Lemma login_visible_next_render_witness :
  view adminLoggedOut = "admin" /\
  exists s', invoke (NextValue true) adminLoggedOut = Some s' /\
             view s' = view adminLoggedOut /\
             adminProps (App s') = Some (true, setIsAdminLoggedIn).
Proof.
  split.
  - reflexivity.
  - apply (login_visible_next_render adminLoggedOut). reflexivity.
Defined.

(** C5.  Leaving the dashboard for the chat and coming back keeps the
    flag: both clicks are delivered, the chat surface is mounted in
    between, neither state changes [isAdminLoggedIn], and the remounted
    admin surface is handed the value it had before the two switches;
    the shell is back in the state it started from. *)
Theorem flag_survives_remount (s : AppState) :
  view s = "admin" ->
  exists s1 s2,
    click ChatControl s = Some s1 /\
    components (App s1) = [ChatInterface] /\
    isAdminLoggedIn s1 = isAdminLoggedIn s /\
    click AdminControl s1 = Some s2 /\
    isAdminLoggedIn s2 = isAdminLoggedIn s /\
    adminProps (App s2) = Some (isAdminLoggedIn s, setIsAdminLoggedIn) /\
    s2 = s.
Proof.
  intros Hv.
  exists (setView (NextValue "chat") s).
  exists (setView (NextValue "admin") (setView (NextValue "chat") s)).
  repeat split; try apply click_App.
  destruct s as [v b]; simpl in Hv; subst v; reflexivity.
Qed.

Lemma flag_survives_remount_witness :
  view adminLoggedIn = "admin" /\
  exists s1 s2,
    click ChatControl adminLoggedIn = Some s1 /\
    components (App s1) = [ChatInterface] /\
    isAdminLoggedIn s1 = isAdminLoggedIn adminLoggedIn /\
    click AdminControl s1 = Some s2 /\
    isAdminLoggedIn s2 = isAdminLoggedIn adminLoggedIn /\
    adminProps (App s2) =
      Some (isAdminLoggedIn adminLoggedIn, setIsAdminLoggedIn) /\
    s2 = adminLoggedIn.
Proof.
  split.
  - reflexivity.
  - apply (flag_survives_remount adminLoggedIn). reflexivity.
Defined.

(** C6.  A navigation click is delivered as [setView] of the control's
    value and leaves [isAdminLoggedIn] alone; the setter given to the
    admin surface leaves [view] alone in whatever state it is called, and
    writes the flag as React's reducer prescribes; and no render hands the
    admin surface anything but that setter. *)
Theorem setters_frame (s : AppState) (c : control) (a : SetStateAction bool) :
  (exists s', click c s = Some s' /\
              isAdminLoggedIn s' = isAdminLoggedIn s /\
              view s' = controlValue c) /\
  (view (setIsAdminLoggedIn a s) = view s /\
   isAdminLoggedIn (setIsAdminLoggedIn a s) =
     basicStateReducer (isAdminLoggedIn s) a) /\
  (forall (r : AppState) (b : bool) (k : SetStateAction bool -> handler),
      In (AdminDashboard b k) (components (App r)) -> k = setIsAdminLoggedIn).
Proof.
  split; [| split].
  - rewrite click_App. eexists. repeat split.
  - split; reflexivity.
  - intros r b k Hin. apply (capability_is_setter r b k Hin).
Qed.

(** C7.  In every state, each navigation control has a button in the
    render whose class is ["active"] exactly when [view] equals the
    control's value, and the empty class otherwise. *)
Theorem active_marker (s : AppState) (c : control) :
  exists (p : props) (cls : string),
    navButton c (App s) = Some p /\
    className p = Some cls /\
    (cls = "active" <-> view s = controlValue c) /\
    (cls = "active" \/ cls = "").
Proof.
  rewrite navButton_App. eexists. eexists.
  split; [reflexivity | split; [reflexivity |]].
  destruct (view s =? controlValue c) eqn:E.
  - apply String.eqb_eq in E. split; [| left; reflexivity].
    split; intros _; [exact E | reflexivity].
  - apply String.eqb_neq in E. split; [| right; reflexivity].
    split; [discriminate | intros H; contradiction].
Qed.

(** C8.  In every state reachable from [mount] by navigation clicks and
    calls of the admin setter, [view] is one of ['chat'] and ['admin'],
    and not the other. *)
Theorem view_enumerated (s : AppState) :
  reachable s ->
  (view s = "chat" /\ view s <> "admin") \/
  (view s = "admin" /\ view s <> "chat").
Proof.
  intros Hr.
  destruct (reachable_view s Hr) as [Hv | Hv]; rewrite Hv; [left | right];
    split; (reflexivity || discriminate).
Qed.

Lemma view_enumerated_witness :
  reachable chatLoggedIn /\
  ((view chatLoggedIn = "chat" /\ view chatLoggedIn <> "admin") \/
   (view chatLoggedIn = "admin" /\ view chatLoggedIn <> "chat")).
Proof.
  assert (Hr : reachable chatLoggedIn).
  { exact (reachable_click ChatControl adminLoggedIn chatLoggedIn
             reachable_adminLoggedIn eq_refl). }
  split.
  - exact Hr.
  - exact (view_enumerated chatLoggedIn Hr).
Defined.

(** C10.  While [view] is ['chat'] the render does not depend on
    [isAdminLoggedIn]: two states showing the chat render to the same
    tree. *)
Theorem chat_render_ignores_flag (s1 s2 : AppState) :
  view s1 = "chat" -> view s2 = "chat" -> App s1 = App s2.
Proof.
  intros H1 H2. unfold App. rewrite H1, H2. reflexivity.
Qed.

Lemma chat_render_ignores_flag_witness :
  view mount = "chat" /\ view chatLoggedIn = "chat" /\
  isAdminLoggedIn mount <> isAdminLoggedIn chatLoggedIn /\
  App mount = App chatLoggedIn.
Proof.
  split; [reflexivity | split; [reflexivity | split]].
  - discriminate.
  - apply (chat_render_ignores_flag mount chatLoggedIn); reflexivity.
Defined.

(** ** Further properties of the render *)

(** Two renders are equal exactly when the three things [App] reads agree:
    the test against ['chat'], the test against ['admin'], and, outside
    the chat view, the flag. *)
Lemma App_eq_iff (s1 s2 : AppState) :
  App s1 = App s2 <->
  (view s1 =? "chat") = (view s2 =? "chat") /\
  (view s1 =? "admin") = (view s2 =? "admin") /\
  ((view s1 =? "chat") = true \/ isAdminLoggedIn s1 = isAdminLoggedIn s2).
Proof.
  unfold App.
  destruct (view s1 =? "chat"), (view s2 =? "chat"),
           (view s1 =? "admin"), (view s2 =? "admin");
    (split; [intros H | intros (H1 & H2 & [H3 | H3])]);
    try discriminate; try congruence;
    repeat split; try (left; reflexivity); try (right; congruence).
Qed.

(** X1.  On reachable states the render is one-to-one except for the flag
    in the chat view: two reachable states render to the same tree exactly
    when they are the same state or both show the chat. *)
Theorem render_reveals (s1 s2 : AppState) :
  reachable s1 -> reachable s2 ->
  (App s1 = App s2 <-> s1 = s2 \/ (view s1 = "chat" /\ view s2 = "chat")).
Proof.
  intros R1 R2. rewrite App_eq_iff.
  destruct (reachable_view s1 R1) as [V1 | V1],
           (reachable_view s2 R2) as [V2 | V2];
    destruct s1 as [v1 b1], s2 as [v2 b2]; simpl in *; subst v1 v2; simpl.
  - split; [intros _; right; split; reflexivity |].
    intros _. repeat split. left; reflexivity.
  - split; [intros (H & _); discriminate H |].
    intros [H | [_ H]]; discriminate H.
  - split; [intros (H & _); discriminate H |].
    intros [H | [H _]]; discriminate H.
  - split.
    + intros (_ & _ & [H | H]); [discriminate H | left; congruence].
    + intros [H | [H _]]; [| discriminate H].
      injection H as ->. repeat split. right; reflexivity.
Qed.

Lemma render_reveals_witness :
  reachable adminLoggedIn /\ reachable mount /\
  (App adminLoggedIn = App mount <->
   adminLoggedIn = mount \/ (view adminLoggedIn = "chat" /\ view mount = "chat")).
Proof.
  split; [exact reachable_adminLoggedIn | split; [exact reachable_mount |]].
  exact (render_reveals adminLoggedIn mount reachable_adminLoggedIn reachable_mount).
Defined.

(** X2.  The body tests [view] against ['chat'] only.  Any state whose
    [view] is not ['chat'] mounts the admin dashboard with the flag and
    the setter, and when [view] is not ['admin'] either, no navigation
    button is marked active. *)
Theorem else_branch_is_admin (s : AppState) :
  view s <> "chat" ->
  components (App s) = [AdminDashboard (isAdminLoggedIn s) setIsAdminLoggedIn] /\
  (view s <> "admin" -> activeButtons (App s) = []).
Proof.
  intros Hc. apply String.eqb_neq in Hc. split.
  - rewrite components_App, Hc. reflexivity.
  - intros Ha. apply String.eqb_neq in Ha.
    unfold activeButtons. rewrite buttons_App, Hc, Ha. reflexivity.
Qed.

Lemma else_branch_is_admin_witness :
  view strayView <> "chat" /\
  (components (App strayView) =
     [AdminDashboard (isAdminLoggedIn strayView) setIsAdminLoggedIn] /\
   (view strayView <> "admin" -> activeButtons (App strayView) = [])).
Proof.
  split.
  - discriminate.
  - apply (else_branch_is_admin strayView). discriminate.
Defined.

(** X3.  In every reachable state exactly one of the two navigation
    buttons that [App] renders is marked active: there is one control
    such that a control's button carries the ["active"] class exactly
    when it is that control, and a control's click handler returns the
    current state unchanged exactly when it is that control (the other
    button's handler changes the state). *)
Theorem one_active_nav_button (s : AppState) :
  reachable s ->
  exists c : control,
    view s = controlValue c /\
    forall c' : control,
    exists (p : props) (h : handler),
      navButton c' (App s) = Some p /\
      onClick p = Some h /\
      (isActive p = true <-> c' = c) /\
      (h s = s <-> c' = c).
Proof.
  intros Hr. destruct s as [v b].
  destruct (reachable_view _ Hr) as [Hv | Hv]; simpl in Hv; subst v;
    [exists ChatControl | exists AdminControl];
    (split; [reflexivity |]);
    intros c'; rewrite navButton_App; eexists; eexists;
    (split; [reflexivity | split; [reflexivity |]]);
    destruct c'; simpl; split; split; intros H;
    try reflexivity; discriminate H.
Qed.

Lemma one_active_nav_button_witness :
  reachable adminLoggedIn /\
  exists c : control,
    view adminLoggedIn = controlValue c /\
    forall c' : control,
    exists (p : props) (h : handler),
      navButton c' (App adminLoggedIn) = Some p /\
      onClick p = Some h /\
      (isActive p = true <-> c' = c) /\
      (h adminLoggedIn = adminLoggedIn <-> c' = c).
Proof.
  split.
  - exact reachable_adminLoggedIn.
  - exact (one_active_nav_button adminLoggedIn reachable_adminLoggedIn).
Defined.

(** ** Further properties of the event loop *)

(** X4.  A navigation handler captures nothing of the render it was
    created in: the handler taken from the render of any state [r], run
    in any current state [s], writes the control's value to [view] and
    keeps the flag of [s], not that of [r]. *)
Theorem nav_handler_not_stale (r s : AppState) (c : control)
        (p : props) (h : handler) :
  navButton c (App r) = Some p ->
  onClick p = Some h ->
  h s = {| view := controlValue c; isAdminLoggedIn := isAdminLoggedIn s |}.
Proof.
  intros Hp Hh. rewrite navButton_App in Hp. injection Hp as <-.
  simpl in Hh. injection Hh as <-. reflexivity.
Qed.

Lemma nav_handler_not_stale_witness :
  navButton ChatControl (App adminLoggedOut) =
    Some {| className := Some "";
            onClick := Some (setView (NextValue "chat")) |} /\
  onClick {| className := Some "";
             onClick := Some (setView (NextValue "chat")) |} =
    Some (setView (NextValue "chat")) /\
  setView (NextValue "chat") adminLoggedIn =
    {| view := controlValue ChatControl;
       isAdminLoggedIn := isAdminLoggedIn adminLoggedIn |}.
Proof.
  split; [reflexivity | split; [reflexivity |]].
  apply (nav_handler_not_stale adminLoggedOut adminLoggedIn ChatControl
           {| className := Some "";
              onClick := Some (setView (NextValue "chat")) |}
           (setView (NextValue "chat"))); reflexivity.
Defined.

(** X5.  Navigation never touches the login flag.  From any state, any
    sequence of clicks is delivered and ends in a state with the flag it
    started with, so an admin surface mounted at the end is handed that
    value; starting from [mount] it is handed [false]. *)
Theorem navigation_keeps_flag (cs : list control) (s : AppState) :
  exists s',
    clicks cs s = Some s' /\
    isAdminLoggedIn s' = isAdminLoggedIn s /\
    (forall (b : bool) (k : SetStateAction bool -> handler),
        In (AdminDashboard b k) (components (App s')) ->
        b = isAdminLoggedIn s).
Proof.
  destruct (clicks_total cs s) as [s' [Hs' Hb]].
  exists s'. split; [exact Hs' | split; [exact Hb |]].
  intros b k Hin. rewrite <- Hb. apply (capability_is_setter s' b k Hin).
Qed.

(** A run of clicks ends with a [view] that depends on the starting
    [view] only (in fact not even on that), and a run of setter calls with
    a flag that depends on the starting flag only. *)
Lemma run_clicks_view (l : list event) (u w u' w' : AppState) :
  view u = view w ->
  run (filter isClick l) u = Some u' ->
  run (filter isClick l) w = Some w' ->
  view u' = view w' /\
  isAdminLoggedIn u' = isAdminLoggedIn u /\
  isAdminLoggedIn w' = isAdminLoggedIn w.
Proof.
  revert u w. induction l as [| [c | a] l IH]; intros u w Huw Hu Hw; simpl in *.
  - injection Hu as <-. injection Hw as <-. repeat split. exact Huw.
  - rewrite click_App in Hu, Hw. simpl in Hu, Hw.
    exact (IH (setView (NextValue (controlValue c)) u)
              (setView (NextValue (controlValue c)) w) eq_refl Hu Hw).
  - apply (IH u w Huw Hu Hw).
Qed.

Lemma run_setters_flag (l : list event) (u w u' w' : AppState) :
  isAdminLoggedIn u = isAdminLoggedIn w ->
  run (filter (fun e => negb (isClick e)) l) u = Some u' ->
  run (filter (fun e => negb (isClick e)) l) w = Some w' ->
  isAdminLoggedIn u' = isAdminLoggedIn w' /\
  view u' = view u /\
  view w' = view w.
Proof.
  revert u w. induction l as [| [c | a] l IH]; intros u w Huw Hu Hw; simpl in *.
  - injection Hu as <-. injection Hw as <-. repeat split. exact Huw.
  - apply (IH u w Huw Hu Hw).
  - apply (IH (setIsAdminLoggedIn a u) (setIsAdminLoggedIn a w)); try assumption.
    simpl. rewrite Huw. reflexivity.
Qed.

(** X6.  The two hook cells do not interfere under any interleaving.
    Every trace of clicks and setter calls is delivered; the [view] it
    ends with is the one its clicks alone produce, and the flag it ends
    with is the one its setter calls alone produce. *)
Theorem cells_independent (es : list event) (s : AppState) :
  exists s' sv sf,
    run es s = Some s' /\
    run (filter isClick es) s = Some sv /\
    run (filter (fun e => negb (isClick e)) es) s = Some sf /\
    view s' = view sv /\
    isAdminLoggedIn s' = isAdminLoggedIn sf /\
    isAdminLoggedIn sv = isAdminLoggedIn s /\
    view sf = view s.
Proof.
  revert s. induction es as [| e es IH]; intros s.
  - exists s, s, s. repeat split.
  - destruct (IH s) as (t' & tv & tf & _ & Hv' & Hf' & _).
    destruct e as [c | a]; simpl.
    + rewrite click_App; simpl.
      destruct (IH (setView (NextValue (controlValue c)) s))
        as (s' & sv & sf & Hr & Hv & Hf & E1 & E2 & E3 & E4).
      destruct (run_setters_flag es (setView (NextValue (controlValue c)) s) s
                  sf tf eq_refl Hf Hf') as (G1 & _ & G3).
      exists s', sv, tf. repeat split; try assumption.
      rewrite E2. exact G1.
    + destruct (IH (setIsAdminLoggedIn a s))
        as (s' & sv & sf & Hr & Hv & Hf & E1 & E2 & E3 & E4).
      destruct (run_clicks_view es (setIsAdminLoggedIn a s) s
                  sv tv eq_refl Hv Hv') as (G1 & _ & G3).
      exists s', tv, sf. repeat split; try assumption.
      rewrite E1. exact G1.
Qed.

Lemma live_of_view (s : AppState) :
  view s = "chat" \/ view s = "admin" -> live s.
Proof.
  assert (L1 : live adminLoggedOut)
    by exact (live_click AdminControl mount adminLoggedOut live_mount eq_refl).
  assert (L2 : live adminLoggedIn)
    by exact (live_invoke (NextValue true) adminLoggedOut adminLoggedIn L1 eq_refl).
  assert (L3 : live chatLoggedIn)
    by exact (live_click ChatControl adminLoggedIn chatLoggedIn L2 eq_refl).
  destruct s as [v [|]]; simpl; intros [-> | ->];
    [exact L3 | exact L2 | exact live_mount | exact L1].
Qed.

Lemma live_reachable (s : AppState) : live s -> reachable s.
Proof.
  induction 1 as [| c s s' _ IH Hc | a s s' _ IH Hi].
  - exact reachable_mount.
  - exact (reachable_click c s s' IH Hc).
  - destruct (String.eqb_spec (view s) "chat") as [E | E].
    + unfold invoke in Hi. rewrite (adminProps_chat s E) in Hi. discriminate Hi.
    + rewrite (invoke_other a s E) in Hi. injection Hi as <-.
      exact (reachable_setIsLoggedIn a s IH).
Qed.

(** X7.  The invariant on [view] is exact: a state is reachable if and
    only if its [view] is ['chat'] or ['admin'].  All four combinations
    of view and flag occur, in particular the chat view with the admin
    still logged in. *)
Theorem reachable_exact (s : AppState) :
  reachable s <-> (view s = "chat" \/ view s = "admin").
Proof.
  split.
  - apply reachable_view.
  - intros Hv. apply live_reachable, live_of_view, Hv.
Qed.

(** X8.  Letting the setter fire in any state adds nothing: the states
    reached that way are the states reached when the setter is only
    called through the [setIsLoggedIn] prop of an admin surface mounted
    in the current render. *)
Theorem stale_setter_adds_nothing (s : AppState) :
  reachable s <-> live s.
Proof.
  split.
  - intros Hr. apply live_of_view, reachable_view, Hr.
  - apply live_reachable.
Qed.

(** X9.  A call of the flag's setter changes the render in one place
    only, the [isLoggedIn] prop of the admin dashboard: with that prop
    blanked, the tree after the call is the tree before it.  In the chat
    view no dashboard is mounted and the whole tree is unchanged;
    otherwise the dashboard is handed the value the setter computed,
    together with the same setter. *)
Theorem setter_updates_in_place (a : SetStateAction bool) (s : AppState) :
  eraseIsLoggedIn (App (setIsAdminLoggedIn a s)) = eraseIsLoggedIn (App s) /\
  (if view s =? "chat"
   then App (setIsAdminLoggedIn a s) = App s
   else adminProps (App (setIsAdminLoggedIn a s)) =
          Some (basicStateReducer (isAdminLoggedIn s) a, setIsAdminLoggedIn)).
Proof.
  split.
  - unfold App; simpl. destruct (view s =? "chat"); reflexivity.
  - destruct (view s =? "chat") eqn:E.
    + unfold App; simpl. rewrite E. reflexivity.
    + apply String.eqb_neq in E.
      apply (adminProps_other (setIsAdminLoggedIn a s) E).
Qed.

Example erase_keeps_texts :
  eraseIsLoggedIn (App adminLoggedIn) = App adminLoggedOut /\
  eraseIsLoggedIn (App chatLoggedIn) = App chatLoggedIn.
Proof. split; reflexivity. Qed.

(** X10.  In a reachable state a navigation click replaces the mounted
    component exactly when it changes [view]: clicking the button of the
    current view keeps the component type, clicking the other one swaps
    it. *)
Theorem click_remounts_iff_view_changes (c : control) (s : AppState) :
  reachable s ->
  exists s',
    click c s = Some s' /\
    (mountedTypes (App s') = mountedTypes (App s) <-> view s = controlValue c).
Proof.
  intros Hr. rewrite click_App. eexists. split; [reflexivity |].
  unfold mountedTypes. rewrite !components_App.
  destruct s as [v b]; simpl.
  destruct (reachable_view _ Hr) as [Hv | Hv]; simpl in Hv; subst v;
    destruct c; simpl; split; intros H; try reflexivity; discriminate H.
Qed.

Lemma click_remounts_iff_view_changes_witness :
  reachable adminLoggedIn /\
  exists s',
    click ChatControl adminLoggedIn = Some s' /\
    (mountedTypes (App s') = mountedTypes (App adminLoggedIn) <->
     view adminLoggedIn = controlValue ChatControl).
Proof.
  split.
  - exact reachable_adminLoggedIn.
  - exact (click_remounts_iff_view_changes ChatControl adminLoggedIn
             reachable_adminLoggedIn).
Defined.

Example stray_click_keeps_component :
  dispatch (click AdminControl strayView)
           (fun s' => Some (mountedTypes (App s'))) =
  Some (mountedTypes (App strayView)).
Proof. reflexivity. Qed.
